(** * Mergington High School activities API (src/app.py)

    A shallow embedding of the FastAPI application: the three
    process-wide dictionaries ([activities], [teachers], [sessions]) form
    the state, every endpoint is a function in a small state-and-exception
    monad, and the properties of the specification are proved about those
    functions. *)

From Stdlib Require Import ZArith Ascii Floats.PrimFloat.
From stdpp Require Import gmap strings list fin_maps.

Local Open Scope string_scope.
Local Open Scope Z_scope.
Local Open Scope list_scope.

(** ** Python values and primitives *)

Module Py.

#[local] Set Warnings "-register-all".

(** The values a decoded JSON document can hold. *)
Inductive pyval : Type :=
  | PyNone
  | PyBool (b : bool)
  | PyInt (n : Z)
  | PyFloat (f : float)
  | PyStr (s : string)
  | PyList (items : list pyval)
  | PyDict (items : list (string * pyval)).

(** [bool(s)] for a [str]. *)
Definition truthy_str (s : string) : bool :=
  negb (String.eqb s "").

(** [bool(v)]: [None], [False], zero, and empty strings and containers are
    false. *)
Definition truthy (v : pyval) : bool :=
  match v with
  | PyNone => false
  | PyBool b => b
  | PyInt n => negb (n =? 0)
  | PyFloat f => negb (PrimFloat.eqb f 0%float)
  | PyStr s => truthy_str s
  | PyList items => negb (bool_decide (items = []))
  | PyDict items => negb (bool_decide (items = []))
  end.

(** [d.get(k)] on a decoded JSON object: [None] for a missing key. *)
Definition dict_get (d : gmap string pyval) (k : string) : pyval :=
  default PyNone (d !! k).

(** [bool(o)] for an [Optional[str]]. *)
Definition truthy_opt_str (o : option string) : bool :=
  match o with
  | None => false
  | Some s => truthy_str s
  end.

(** [hash(v)] is defined: lists and dicts are unhashable, and looking one
    up in a [dict] raises [TypeError].  A hashable value that is not a
    [str] is never a key of a dictionary whose keys are all [str]. *)
Definition hashable (v : pyval) : bool :=
  match v with
  | PyList _ | PyDict _ => false
  | _ => true
  end.

(** [s != v] for a [str] [s]: a string is equal to an equal string only. *)
Definition str_ne (s : string) (v : pyval) : bool :=
  match v with
  | PyStr s' => negb (String.eqb s s')
  | _ => true
  end.

(** [l.remove(x)]: drops the first occurrence of [x]; [None] stands for the
    [ValueError] raised when there is none. *)
Fixpoint list_remove (x : string) (l : list string) : option (list string) :=
  match l with
  | [] => None
  | y :: l' =>
      if String.eqb y x then Some l'
      else match list_remove x l' with
           | Some r => Some (y :: r)
           | None => None
           end
  end.

(** [x in l] for a list of strings. *)
Definition list_contains (x : string) (l : list string) : bool :=
  existsb (String.eqb x) l.

End Py.

Import Py.

(** ** Outcomes of a request handler *)

(** A handler returns a value, raises [HTTPException] (turned by the
    framework into a response with that status), or lets another exception
    escape. *)
Inductive outcome (A : Type) : Type :=
  | Return (a : A)
  | HTTPException (status_code : Z) (detail : string)
  | Uncaught (exc : string).

Arguments Return {A} a.
Arguments HTTPException {A} status_code detail.
Arguments Uncaught {A} exc.

(** ** Data model *)

(** One value of the [activities] dictionary. *)
Record Activity : Type := mkActivity {
  description : string;
  schedule : string;
  max_participants : Z;
  participants : list string
}.

(** The module-level dictionaries.  Keys are unique as in a [dict]; the
    insertion order of a [dict] plays no role in the handlers. *)
Record State : Type := mkState {
  activities : gmap string Activity;
  teachers : gmap string string;
  sessions : gmap string string
}.

(** What the handlers read of a [Request]: [request.cookies.get] and
    [request.headers.get]. *)
Record Request : Type := mkRequest {
  cookies : gmap string string;
  headers : gmap string string
}.

(** Calls made on the [Response] argument. *)
Inductive cookie_op : Type :=
  | set_cookie (key value : string) (httponly : bool) (samesite : string)
  | delete_cookie (key : string).

(** A JSON object of string fields, as the handlers return. *)
Definition body : Type := list (string * string).

(** ** The handler monad: state passing with exceptions *)

Definition handler (A : Type) : Type := State → outcome A * State.

#[global] Instance handler_ret : MRet handler :=
  λ A a st, (Return a, st).

#[global] Instance handler_bind : MBind handler :=
  λ A B f c st,
    match c st with
    | (Return a, st') => f a st'
    | (HTTPException code detail, st') => (HTTPException code detail, st')
    | (Uncaught exc, st') => (Uncaught exc, st')
    end.

Definition raise {A : Type} (status_code : Z) (detail : string) : handler A :=
  λ st, (HTTPException status_code detail, st).

Definition uncaught {A : Type} (exc : string) : handler A :=
  λ st, (Uncaught exc, st).

Definition gets {A : Type} (f : State → A) : handler A :=
  λ st, (Return (f st), st).

Definition modify (f : State → State) : handler unit :=
  λ st, (Return tt, f st).

Definition set_activities (acts : gmap string Activity) (st : State) : State :=
  mkState acts (teachers st) (sessions st).

Definition set_sessions (sess : gmap string string) (st : State) : State :=
  mkState (activities st) (teachers st) sess.

Definition set_participants (l : list string) (a : Activity) : Activity :=
  mkActivity (description a) (schedule a) (max_participants a) l.

(** ** Module-level data *)

(** The [activities] literal. *)
Definition activities_seed : gmap string Activity :=
  list_to_map [
    ("Chess Club",
      mkActivity "Learn strategies and compete in chess tournaments"
        "Fridays, 3:30 PM - 5:00 PM" 12
        ["michael@mergington.edu"; "daniel@mergington.edu"]);
    ("Programming Class",
      mkActivity "Learn programming fundamentals and build software projects"
        "Tuesdays and Thursdays, 3:30 PM - 4:30 PM" 20
        ["emma@mergington.edu"; "sophia@mergington.edu"]);
    ("Gym Class",
      mkActivity "Physical education and sports activities"
        "Mondays, Wednesdays, Fridays, 2:00 PM - 3:00 PM" 30
        ["john@mergington.edu"; "olivia@mergington.edu"]);
    ("Soccer Team",
      mkActivity "Join the school soccer team and compete in matches"
        "Tuesdays and Thursdays, 4:00 PM - 5:30 PM" 22
        ["liam@mergington.edu"; "noah@mergington.edu"]);
    ("Basketball Team",
      mkActivity "Practice and play basketball with the school team"
        "Wednesdays and Fridays, 3:30 PM - 5:00 PM" 15
        ["ava@mergington.edu"; "mia@mergington.edu"]);
    ("Art Club",
      mkActivity "Explore your creativity through painting and drawing"
        "Thursdays, 3:30 PM - 5:00 PM" 15
        ["amelia@mergington.edu"; "harper@mergington.edu"]);
    ("Drama Club",
      mkActivity "Act, direct, and produce plays and performances"
        "Mondays and Wednesdays, 4:00 PM - 5:30 PM" 20
        ["ella@mergington.edu"; "scarlett@mergington.edu"]);
    ("Math Club",
      mkActivity "Solve challenging problems and participate in math competitions"
        "Tuesdays, 3:30 PM - 4:30 PM" 10
        ["james@mergington.edu"; "benjamin@mergington.edu"]);
    ("Debate Team",
      mkActivity "Develop public speaking and argumentation skills"
        "Fridays, 4:00 PM - 5:30 PM" 12
        ["charlotte@mergington.edu"; "henry@mergington.edu"])
  ].

(** The state when the module has been imported: [sessions = {}],
    [teachers = {}] and the seeded [activities]. *)
Definition module_state : State :=
  mkState activities_seed ∅ ∅.

(** ** Handlers *)

(** [root]: the redirect target. *)
Definition root : handler string :=
  mret "/static/index.html".

(** [load_teachers].  [file] is what opening and decoding [teachers.json]
    gives, a JSON object from user names to passwords, the passwords being
    strings as the file format has them, or [None] when either step
    raises. *)
Definition load_teachers (file : option (gmap string string)) : handler unit :=
  match file with
  | Some loaded => modify (λ st, mkState (activities st) loaded (sessions st))
  | None => modify (λ st, mkState (activities st) ∅ (sessions st))
  end.

Definition get_token_from_request (request : Request) : option string :=
  let token := cookies request !! "admin_token" in
  if negb (truthy_opt_str token) then headers request !! "X-Admin-Token"
  else token.

Definition require_teacher (request : Request) : handler string :=
  let token := get_token_from_request request in
  sess ← gets sessions;
  match token with
  | None => raise 401 "Admin authentication required"
  | Some tok =>
      if negb (truthy_str tok) || negb (bool_decide (tok ∈ dom sess))
      then raise 401 "Admin authentication required"
      else match sess !! tok with
           | Some user => mret user
           | None => uncaught "KeyError"
           end
  end.

Definition startup_event (file : option (gmap string string)) : handler unit :=
  load_teachers file.

Definition get_activities : handler (gmap string Activity) :=
  gets activities.

Definition signup_for_activity (activity_name email : string)
    (request : Request) : handler body :=
  require_teacher request;;
  acts ← gets activities;
  match acts !! activity_name with
  | None => raise 404 "Activity not found"
  | Some activity =>
      if list_contains email (participants activity)
      then raise 400 "Student is already signed up"
      else
        modify (set_activities
          (<[activity_name :=
               set_participants (participants activity ++ [email]) activity]>
             acts));;
        mret [("message", "Signed up " +:+ email +:+ " for " +:+ activity_name)]
  end.

Definition unregister_from_activity (activity_name email : string)
    (request : Request) : handler body :=
  require_teacher request;;
  acts ← gets activities;
  match acts !! activity_name with
  | None => raise 404 "Activity not found"
  | Some activity =>
      if negb (list_contains email (participants activity))
      then raise 400 "Student is not signed up for this activity"
      else
        match list_remove email (participants activity) with
        | None => uncaught "ValueError"
        | Some rest =>
            modify (set_activities
              (<[activity_name := set_participants rest activity]> acts));;
            mret [("message",
                   "Unregistered " +:+ email +:+ " from " +:+ activity_name)]
        end
  end.

(** [admin_login].  [uuid4_hex] is the value [uuid.uuid4().hex] returns in
    this call.  The keys of [teachers] are strings, so [username not in
    teachers] raises [TypeError] for an unhashable [username], holds for
    every other value that is not a [str], and is a lookup for a [str]. *)
Definition admin_login (payload : gmap string pyval) (uuid4_hex : string)
    : handler (body * list cookie_op) :=
  let username := dict_get payload "username" in
  let password := dict_get payload "password" in
  if negb (truthy username) || negb (truthy password)
  then raise 400 "username and password required"
  else if negb (hashable username) then uncaught "TypeError"
  else
    tchs ← gets teachers;
    match username with
    | PyStr user =>
        match tchs !! user with
        | None => raise 401 "invalid credentials"
        | Some stored =>
            if str_ne stored password
            then raise 401 "invalid credentials"
            else
              let token := uuid4_hex in
              sess ← gets sessions;
              modify (set_sessions (<[token := user]> sess));;
              mret ([("message", "logged in"); ("token", token)],
                    [set_cookie "admin_token" token true "lax"])
        end
    | _ => raise 401 "invalid credentials"
    end.

Definition admin_logout (request : Request) : handler (body * list cookie_op) :=
  let token := get_token_from_request request in
  sess ← gets sessions;
  (match token with
   | Some tok =>
       if truthy_str tok && bool_decide (tok ∈ dom sess)
       then modify (set_sessions (delete tok sess))
       else mret tt
   | None => mret tt
   end);;
  mret ([("message", "logged out")], [delete_cookie "admin_token"]).

(** ** Session tokens *)

Definition is_hex_digit (c : ascii) : bool :=
  bool_decide (c ∈ String.list_ascii_of_string "0123456789abcdef").

(** The strings [uuid.uuid4().hex] can return: 32 lower-case hexadecimal
    digits, of which the thirteenth is the version, 4, and the seventeenth
    carries the variant bits 10 (RFC 4122). *)
Definition is_uuid4_hex (s : string) : bool :=
  let cs := String.list_ascii_of_string s in
  bool_decide (length cs = 32%nat)
  && forallb is_hex_digit cs
  && bool_decide (cs !! 12%nat = Some "4"%char)
  && match cs !! 16%nat with
     | Some c => bool_decide (c ∈ String.list_ascii_of_string "89ab")
     | None => false
     end.

(** A request that presents [tok] as the [admin_token] cookie. *)
Definition request_with_cookie (tok : string) : Request :=
  mkRequest {["admin_token" := tok]} ∅.

(** A request that presents [tok] in the [X-Admin-Token] header and carries
    no cookie. *)
Definition request_with_header (tok : string) : Request :=
  mkRequest ∅ {["X-Admin-Token" := tok]}.

(** The caller holds a valid session: the token the request presents is a
    non-empty key of [sessions]. *)
Definition authenticated (request : Request) (st : State) : Prop :=
  ∃ tok, get_token_from_request request = Some tok
         ∧ tok ≠ "" ∧ is_Some (sessions st !! tok).

(** ** Runs of the application *)

Inductive call : Type :=
  | Root
  | GetActivities
  | Signup (activity_name email : string) (request : Request)
  | Unregister (activity_name email : string) (request : Request)
  | Login (payload : gmap string pyval) (uuid4_hex : string)
  | Logout (request : Request).

(** The state a call leaves behind. *)
Definition run (c : call) (st : State) : State :=
  match c with
  | Root => (root st).2
  | GetActivities => (get_activities st).2
  | Signup activity_name email request =>
      (signup_for_activity activity_name email request st).2
  | Unregister activity_name email request =>
      (unregister_from_activity activity_name email request st).2
  | Login payload uuid4_hex => (admin_login payload uuid4_hex st).2
  | Logout request => (admin_logout request st).2
  end.

(** The random token of a login is one the generator can produce. *)
Definition possible (c : call) : Prop :=
  match c with
  | Login _ uuid4_hex => is_uuid4_hex uuid4_hex = true
  | _ => True
  end.

(** The states the process goes through: the startup event runs on the
    freshly imported module, then requests are served one after another. *)
Inductive reachable : State → Prop :=
  | reachable_startup file :
      reachable (startup_event file module_state).2
  | reachable_call c st :
      reachable st → possible c → reachable (run c st).

(** No email appears twice in one activity's participant list. *)
Definition no_duplicate_participants (st : State) : Prop :=
  ∀ name a, activities st !! name = Some a → NoDup (participants a).

(** What a call on [activity_name] leaves alone: the set of activity names,
    the description, schedule and capacity of every activity, the roster of
    every other activity, the teacher directory and the session store. *)
Definition unchanged_outside (activity_name : string) (st st' : State) : Prop :=
  dom (activities st') = dom (activities st)
  ∧ (∀ name a, activities st !! name = Some a →
       ∃ a', activities st' !! name = Some a'
             ∧ description a' = description a
             ∧ schedule a' = schedule a
             ∧ max_participants a' = max_participants a
             ∧ (name ≠ activity_name → participants a' = participants a))
  ∧ teachers st' = teachers st
  ∧ sessions st' = sessions st.

(** Number of occurrences of [x] in [l]. *)
Definition occurrences (x : string) (l : list string) : nat :=
  length (filter (λ y, y = x) l).

(** ** Example data

    A teacher file with two entries, a token of the generator's format, and
    the states a short session goes through. *)

Definition teachers_example : gmap string string :=
  {[ "ms.rivera" := "tulip-42"; "mr.okafor" := "granite-7" ]}.

Definition token_example : string := "0123456789ab4cde8f0123456789abcd".

Definition login_payload (username password : string) : gmap string pyval :=
  {[ "username" := PyStr username; "password" := PyStr password ]}.

(** After startup with [teachers_example]. *)
Definition state_started : State :=
  (startup_event (Some teachers_example) module_state).2.

(** Then ms.rivera logs in and is given [token_example]. *)
Definition state_logged_in : State :=
  run (Login (login_payload "ms.rivera" "tulip-42") token_example)
    state_started.

(** Then eight more students are signed up for the Math Club, whose
    [max_participants] is 10. *)
Definition math_club_signups : list call :=
  (λ email, Signup "Math Club" email (request_with_cookie token_example))
  <$> [ "s1@mergington.edu"; "s2@mergington.edu"; "s3@mergington.edu";
        "s4@mergington.edu"; "s5@mergington.edu"; "s6@mergington.edu";
        "s7@mergington.edu"; "s8@mergington.edu" ].

Definition state_math_club_full : State :=
  foldl (λ st c, run c st) state_logged_in math_club_signups.

(** A teacher file in which one password is the empty string. *)
Definition teachers_blank : gmap string string :=
  {[ "mr.blank" := "" ]}.

Definition state_blank : State :=
  (startup_event (Some teachers_blank) module_state).2.

(** A second token of the generator's format, and the state in which
    mr.okafor has logged in as well and holds it. *)
Definition token_other : string := "fedcba9876544321a0fedcba98765432".

Definition state_two_sessions : State :=
  run (Login (login_payload "mr.okafor" "granite-7") token_other)
    state_logged_in.

(** A request whose cookie is a token no session knows, while its header
    carries [token_example]. *)
Definition request_stale_cookie : Request :=
  mkRequest {[ "admin_token" := "stale" ]}
            {[ "X-Admin-Token" := token_example ]}.

(** The record of the seeded Chess Club. *)
Definition chess_club : Activity :=
  mkActivity "Learn strategies and compete in chess tournaments"
    "Fridays, 3:30 PM - 5:00 PM" 12
    ["michael@mergington.edu"; "daniel@mergington.edu"].


(** ** Python list primitives *)

Lemma truthy_str_spec s : truthy_str s = true ↔ s ≠ "".
Proof.
  unfold truthy_str. rewrite negb_true_iff.
  destruct (String.eqb_spec s ""); split; congruence.
Qed.

Lemma list_contains_spec x l : list_contains x l = true ↔ x ∈ l.
Proof.
  unfold list_contains. rewrite existsb_exists. split.
  - intros (y & Hy & Heq). apply String.eqb_eq in Heq. subst y.
    by apply list_elem_of_In.
  - intros Hin. exists x. split; [by apply list_elem_of_In|].
    apply String.eqb_refl.
Qed.

Lemma list_contains_false x l : list_contains x l = false ↔ x ∉ l.
Proof.
  rewrite <- list_contains_spec. destruct (list_contains x l); split; congruence.
Qed.

(** [remove] cuts the list at the first occurrence. *)
Lemma list_remove_split x l :
  x ∈ l →
  ∃ l1 l2, l = l1 ++ (x :: l2) ∧ (x ∉ l1) ∧ list_remove x l = Some (l1 ++ l2).
Proof.
  induction l as [|y l IH]; intros Hin.
  - by apply elem_of_nil in Hin.
  - simpl. destruct (String.eqb_spec y x) as [->|Hne].
    + exists [], l. split_and!; [done | apply not_elem_of_nil | done].
    + apply elem_of_cons in Hin as [->|Hin]; [done|].
      destruct (IH Hin) as (l1 & l2 & -> & Hl1 & ->).
      exists (y :: l1), l2. split_and!; [done | | done].
      rewrite elem_of_cons. intros [->|?]; done.
Qed.

Lemma list_remove_absent x l : x ∉ l → list_remove x l = None.
Proof.
  induction l as [|y l IH]; intros Hin; [done|].
  apply not_elem_of_cons in Hin as [Hne Hin]. simpl.
  destruct (String.eqb_spec y x) as [->|_]; [done|]. by rewrite IH.
Qed.

Lemma occurrences_app x l1 l2 :
  occurrences x (l1 ++ l2) = (occurrences x l1 + occurrences x l2)%nat.
Proof. unfold occurrences. by rewrite filter_app, length_app. Qed.

Lemma occurrences_absent x l : x ∉ l → occurrences x l = 0%nat.
Proof.
  intros Hx. unfold occurrences.
  induction l as [|y l IH]; [done|].
  apply not_elem_of_cons in Hx as [Hne Hx].
  rewrite filter_cons_False by congruence. by apply IH.
Qed.

Lemma occurrences_cons_eq x l : occurrences x (x :: l) = S (occurrences x l).
Proof. unfold occurrences. by rewrite filter_cons_True. Qed.

(** ** Authentication *)

Lemma require_teacher_authenticated request st :
  authenticated request st →
  ∃ user, require_teacher request st = (Return user, st).
Proof.
  intros (tok & Htok & Hne & user & Huser). exists user.
  unfold require_teacher, mbind, handler_bind, gets. rewrite Htok.
  apply truthy_str_spec in Hne. rewrite Hne. simpl.
  rewrite bool_decide_eq_true_2 by (apply elem_of_dom; eauto). simpl.
  by rewrite Huser.
Qed.

Lemma require_teacher_unauthenticated request st :
  ¬ authenticated request st →
  require_teacher request st
  = (HTTPException 401 "Admin authentication required", st).
Proof.
  intros Hno. unfold require_teacher, mbind, handler_bind, gets.
  destruct (get_token_from_request request) as [tok|] eqn:Htok; [|done].
  destruct (truthy_str tok) eqn:Htruthy; [|done]. simpl.
  case_bool_decide as Hdom; [|done].
  destruct Hno. exists tok. split_and!; [done | | by apply elem_of_dom].
  by apply truthy_str_spec.
Qed.


(** ** The four outcomes of [signup_for_activity] and of
    [unregister_from_activity] *)

Ltac step_guard Hauth :=
  unfold mbind, handler_bind;
  first [ rewrite (require_teacher_unauthenticated _ _ Hauth)
        | let user := fresh "user" in
          let Huser := fresh "Huser" in
          destruct (require_teacher_authenticated _ _ Hauth) as [user Huser];
          rewrite Huser ];
  unfold gets; simpl.

Lemma signup_unauthenticated activity_name email request st :
  ¬ authenticated request st →
  signup_for_activity activity_name email request st
  = (HTTPException 401 "Admin authentication required", st).
Proof. intros Hauth. unfold signup_for_activity. by step_guard Hauth. Qed.

Lemma signup_not_found activity_name email request st :
  authenticated request st →
  activities st !! activity_name = None →
  signup_for_activity activity_name email request st
  = (HTTPException 404 "Activity not found", st).
Proof.
  intros Hauth Hnone. unfold signup_for_activity. step_guard Hauth.
  by rewrite Hnone.
Qed.

Lemma signup_already activity_name email request st a :
  authenticated request st →
  activities st !! activity_name = Some a →
  email ∈ participants a →
  signup_for_activity activity_name email request st
  = (HTTPException 400 "Student is already signed up", st).
Proof.
  intros Hauth Ha Hin. unfold signup_for_activity. step_guard Hauth.
  rewrite Ha. apply list_contains_spec in Hin. by rewrite Hin.
Qed.

Lemma signup_ok activity_name email request st a :
  authenticated request st →
  activities st !! activity_name = Some a →
  email ∉ participants a →
  signup_for_activity activity_name email request st
  = (Return [("message", "Signed up " +:+ email +:+ " for " +:+ activity_name)],
     set_activities
       (<[activity_name := set_participants (participants a ++ [email]) a]>
          (activities st)) st).
Proof.
  intros Hauth Ha Hin. unfold signup_for_activity. step_guard Hauth.
  rewrite Ha. apply list_contains_false in Hin. by rewrite Hin.
Qed.

Lemma unregister_unauthenticated activity_name email request st :
  ¬ authenticated request st →
  unregister_from_activity activity_name email request st
  = (HTTPException 401 "Admin authentication required", st).
Proof. intros Hauth. unfold unregister_from_activity. by step_guard Hauth. Qed.

Lemma unregister_not_found activity_name email request st :
  authenticated request st →
  activities st !! activity_name = None →
  unregister_from_activity activity_name email request st
  = (HTTPException 404 "Activity not found", st).
Proof.
  intros Hauth Hnone. unfold unregister_from_activity. step_guard Hauth.
  by rewrite Hnone.
Qed.

Lemma unregister_not_signed_up activity_name email request st a :
  authenticated request st →
  activities st !! activity_name = Some a →
  email ∉ participants a →
  unregister_from_activity activity_name email request st
  = (HTTPException 400 "Student is not signed up for this activity", st).
Proof.
  intros Hauth Ha Hin. unfold unregister_from_activity. step_guard Hauth.
  rewrite Ha. apply list_contains_false in Hin. by rewrite Hin.
Qed.

Lemma unregister_ok activity_name email request st a :
  authenticated request st →
  activities st !! activity_name = Some a →
  email ∈ participants a →
  ∃ l1 l2,
    participants a = l1 ++ (email :: l2) ∧ (email ∉ l1) ∧
    unregister_from_activity activity_name email request st
    = (Return [("message",
                "Unregistered " +:+ email +:+ " from " +:+ activity_name)],
       set_activities
         (<[activity_name := set_participants (l1 ++ l2) a]> (activities st))
         st).
Proof.
  intros Hauth Ha Hin.
  destruct (list_remove_split _ _ Hin) as (l1 & l2 & Hsplit & Hl1 & Hrem).
  exists l1, l2. split_and!; [done..|].
  unfold unregister_from_activity. step_guard Hauth.
  rewrite Ha. apply list_contains_spec in Hin. rewrite Hin. simpl.
  by rewrite Hrem.
Qed.

(** Every call to either handler ends in one of these cases. *)
Lemma authenticated_dec request st :
  authenticated request st ∨ ¬ authenticated request st.
Proof.
  unfold authenticated.
  destruct (get_token_from_request request) as [tok|].
  - destruct (decide (tok = "")) as [->|Hne].
    + right. intros (tok' & [= <-] & Hne & _). by destruct Hne.
    + destruct (sessions st !! tok) as [user|] eqn:Hs.
      * left. exists tok. rewrite Hs. eauto.
      * right. intros (tok' & [= <-] & _ & Hsome). rewrite Hs in Hsome.
        by destruct Hsome.
  - right. by intros (tok & Heq & _).
Qed.

(** ** Login and logout *)

Lemma login_missing payload uuid4_hex st :
  truthy (dict_get payload "username") = false
  ∨ truthy (dict_get payload "password") = false →
  admin_login payload uuid4_hex st
  = (HTTPException 400 "username and password required", st).
Proof.
  intros Hmissing. unfold admin_login.
  destruct Hmissing as [-> | ->]; [done|].
  by rewrite orb_true_r.
Qed.

(** With two non-empty strings, [admin_login] is a lookup and a comparison. *)
Lemma login_strings payload uuid4_hex st user password :
  payload !! "username" = Some (PyStr user) →
  payload !! "password" = Some (PyStr password) →
  user ≠ "" → password ≠ "" →
  admin_login payload uuid4_hex st
  = match teachers st !! user with
    | Some stored =>
        if decide (stored = password)
        then (Return ([("message", "logged in"); ("token", uuid4_hex)],
                      [set_cookie "admin_token" uuid4_hex true "lax"]),
              set_sessions (<[uuid4_hex := user]> (sessions st)) st)
        else (HTTPException 401 "invalid credentials", st)
    | None => (HTTPException 401 "invalid credentials", st)
    end.
Proof.
  intros Hu Hp Hune Hpne. unfold admin_login, dict_get.
  rewrite Hu, Hp. simpl.
  apply truthy_str_spec in Hune, Hpne. rewrite Hune, Hpne. simpl.
  unfold mbind, handler_bind, gets. simpl.
  destruct (teachers st !! user) as [stored|]; [|done].
  destruct (String.eqb_spec stored password) as [->|Hne].
  - by rewrite decide_True.
  - by rewrite decide_False.
Qed.

(** A login changes, if anything, the session store, and there only the
    entry of the generated token. *)
Lemma login_frame payload uuid4_hex st :
  activities (admin_login payload uuid4_hex st).2 = activities st
  ∧ teachers (admin_login payload uuid4_hex st).2 = teachers st
  ∧ ∀ tok, tok ≠ uuid4_hex →
      sessions (admin_login payload uuid4_hex st).2 !! tok
      = sessions st !! tok.
Proof.
  unfold admin_login.
  destruct (negb (truthy (dict_get payload "username"))
            || negb (truthy (dict_get payload "password"))); [done|].
  destruct (negb (hashable (dict_get payload "username"))); [done|].
  unfold mbind, handler_bind, gets. simpl.
  destruct (dict_get payload "username") as [| | | |user| |]; try done.
  destruct (teachers st !! user) as [stored|]; [|done].
  destruct (str_ne stored (dict_get payload "password")); [done|].
  simpl. split_and!; [done..|].
  intros tok Hne. by rewrite lookup_insert_ne.
Qed.

(** [admin_logout] always answers "logged out"; it deletes the session of
    the presented token when there is one. *)
Lemma logout_authenticated request st tok :
  get_token_from_request request = Some tok →
  tok ≠ "" →
  admin_logout request st
  = (Return ([("message", "logged out")], [delete_cookie "admin_token"]),
     set_sessions (delete tok (sessions st)) st).
Proof.
  intros Htok Hne. unfold admin_logout, mbind, handler_bind, gets.
  rewrite Htok. apply truthy_str_spec in Hne. rewrite Hne. simpl.
  case_bool_decide as Hdom; [done|]. simpl.
  apply not_elem_of_dom in Hdom. rewrite delete_id by done.
  by destruct st.
Qed.

Lemma logout_unauthenticated request st :
  ¬ authenticated request st →
  admin_logout request st
  = (Return ([("message", "logged out")], [delete_cookie "admin_token"]), st).
Proof.
  intros Hno. unfold admin_logout, mbind, handler_bind, gets.
  destruct (get_token_from_request request) as [tok|] eqn:Htok; [|done].
  destruct (truthy_str tok) eqn:Htruthy; [|done]. simpl.
  case_bool_decide as Hdom; [|done].
  destruct Hno. exists tok. split_and!; [done | | by apply elem_of_dom].
  by apply truthy_str_spec.
Qed.

Lemma logout_frame request st :
  activities (admin_logout request st).2 = activities st
  ∧ teachers (admin_logout request st).2 = teachers st.
Proof.
  unfold admin_logout, mbind, handler_bind, gets.
  destruct (get_token_from_request request) as [tok|]; [|done].
  by destruct (truthy_str tok && bool_decide (tok ∈ dom (sessions st))).
Qed.

(** ** The frame of the two roster handlers *)

Lemma unchanged_refl activity_name st : unchanged_outside activity_name st st.
Proof.
  unfold unchanged_outside. split_and!; try done.
  intros name a Ha. exists a. by split_and!.
Qed.

Lemma unchanged_roster activity_name st a l :
  activities st !! activity_name = Some a →
  unchanged_outside activity_name st
    (set_activities
       (<[activity_name := set_participants l a]> (activities st)) st).
Proof.
  intros Ha. unfold unchanged_outside. simpl. split_and!; try done.
  - apply dom_insert_lookup_L. by exists a.
  - intros name b Hb. destruct (decide (name = activity_name)) as [->|Hne].
    + rewrite lookup_insert_eq. rewrite Ha in Hb. injection Hb as <-.
      eexists. by split_and!.
    + rewrite lookup_insert_ne by done. exists b. by split_and!.
Qed.

Lemma signup_unchanged activity_name email request st :
  unchanged_outside activity_name st
    (signup_for_activity activity_name email request st).2.
Proof.
  destruct (authenticated_dec request st) as [Hauth|Hauth];
    [|rewrite signup_unauthenticated by done; apply unchanged_refl].
  destruct (activities st !! activity_name) as [a|] eqn:Ha;
    [|rewrite signup_not_found by done; apply unchanged_refl].
  destruct (decide (email ∈ participants a)) as [Hin|Hin].
  - rewrite (signup_already _ _ _ _ a) by done. apply unchanged_refl.
  - rewrite (signup_ok _ _ _ _ a) by done. by apply unchanged_roster.
Qed.

Lemma unregister_unchanged activity_name email request st :
  unchanged_outside activity_name st
    (unregister_from_activity activity_name email request st).2.
Proof.
  destruct (authenticated_dec request st) as [Hauth|Hauth];
    [|rewrite unregister_unauthenticated by done; apply unchanged_refl].
  destruct (activities st !! activity_name) as [a|] eqn:Ha;
    [|rewrite unregister_not_found by done; apply unchanged_refl].
  destruct (decide (email ∈ participants a)) as [Hin|Hin].
  - destruct (unregister_ok _ _ request _ _ Hauth Ha Hin)
      as (l1 & l2 & _ & _ & ->).
    by apply unchanged_roster.
  - rewrite (unregister_not_signed_up _ _ _ _ a) by done. apply unchanged_refl.
Qed.

(** ** The roster invariant *)

Lemma seed_no_duplicates :
  map_Forall (λ _ a, NoDup (participants a)) activities_seed.
Proof. apply (bool_decide_unpack _). by vm_compute. Qed.

Lemma startup_no_duplicates file :
  no_duplicate_participants (startup_event file module_state).2.
Proof.
  intros name a. destruct file; simpl; apply seed_no_duplicates.
Qed.

Lemma signup_no_duplicates activity_name email request st :
  no_duplicate_participants st →
  no_duplicate_participants
    (signup_for_activity activity_name email request st).2.
Proof.
  intros Hinv.
  destruct (authenticated_dec request st) as [Hauth|Hauth];
    [|by rewrite signup_unauthenticated].
  destruct (activities st !! activity_name) as [a|] eqn:Ha;
    [|by rewrite signup_not_found].
  destruct (decide (email ∈ participants a)) as [Hin|Hin];
    [by rewrite (signup_already _ _ _ _ a)|].
  rewrite (signup_ok _ _ _ _ a) by done. intros name b. simpl.
  destruct (decide (name = activity_name)) as [->|Hne].
  - rewrite lookup_insert_eq. intros [= <-]. simpl.
    apply NoDup_app. split_and!.
    + by eapply Hinv.
    + intros x Hx ->%list_elem_of_singleton. done.
    + apply NoDup_singleton.
  - rewrite lookup_insert_ne by done. apply Hinv.
Qed.

Lemma unregister_no_duplicates activity_name email request st :
  no_duplicate_participants st →
  no_duplicate_participants
    (unregister_from_activity activity_name email request st).2.
Proof.
  intros Hinv.
  destruct (authenticated_dec request st) as [Hauth|Hauth];
    [|by rewrite unregister_unauthenticated].
  destruct (activities st !! activity_name) as [a|] eqn:Ha;
    [|by rewrite unregister_not_found].
  destruct (decide (email ∈ participants a)) as [Hin|Hin];
    [|by rewrite (unregister_not_signed_up _ _ _ _ a)].
  destruct (unregister_ok _ _ request _ _ Hauth Ha Hin)
    as (l1 & l2 & Hsplit & _ & ->).
  intros name b. simpl.
  destruct (decide (name = activity_name)) as [->|Hne].
  - rewrite lookup_insert_eq. intros [= <-]. simpl.
    specialize (Hinv _ _ Ha). rewrite Hsplit in Hinv.
    apply NoDup_app in Hinv as (Hl1 & Hdisj & Hl2).
    apply NoDup_cons in Hl2 as [_ Hl2].
    apply NoDup_app. split_and!; [done | | done].
    intros x Hx1 Hx2. apply (Hdisj x Hx1). by apply elem_of_cons; right.
  - rewrite lookup_insert_ne by done. apply Hinv.
Qed.

Lemma run_no_duplicates c st :
  no_duplicate_participants st → no_duplicate_participants (run c st).
Proof.
  intros Hinv. destruct c as [| |n e r|n e r|payload tok|r]; simpl.
  - done.
  - done.
  - by apply signup_no_duplicates.
  - by apply unregister_no_duplicates.
  - unfold no_duplicate_participants.
    by rewrite (proj1 (login_frame payload tok st)).
  - unfold no_duplicate_participants.
    by rewrite (proj1 (logout_frame r st)).
Qed.

Lemma reachable_no_duplicates st :
  reachable st → no_duplicate_participants st.
Proof.
  induction 1 as [file|c st _ IH _].
  - apply startup_no_duplicates.
  - by apply run_no_duplicates.
Qed.

(** ** Facts about the example data *)

Lemma uuid4_hex_nonempty s : is_uuid4_hex s = true → s ≠ "".
Proof. intros Hs ->. by vm_compute in Hs. Qed.

Lemma token_example_possible : is_uuid4_hex token_example = true.
Proof. by vm_compute. Qed.

Lemma cookie_presents tok :
  tok ≠ "" → get_token_from_request (request_with_cookie tok) = Some tok.
Proof.
  intros Hne. unfold get_token_from_request, request_with_cookie. simpl.
  rewrite lookup_singleton_eq. simpl.
  apply truthy_str_spec in Hne. by rewrite Hne.
Qed.

Lemma header_presents tok :
  get_token_from_request (request_with_header tok) = Some tok.
Proof.
  unfold get_token_from_request, request_with_header. simpl.
  rewrite lookup_empty. simpl. by rewrite lookup_singleton_eq.
Qed.

Lemma state_logged_in_reachable : reachable state_logged_in.
Proof.
  apply reachable_call; [apply reachable_startup|].
  apply token_example_possible.
Qed.

Lemma reachable_calls cs st :
  reachable st → Forall possible cs →
  reachable (foldl (λ st c, run c st) st cs).
Proof.
  intros Hst Hcs. revert st Hst.
  induction Hcs as [|c cs Hc _ IH]; intros st Hst; [done|].
  simpl. apply IH. by apply reachable_call.
Qed.

(** * The properties of the specification *)

(** ** Signing up *)

(** C1: for an activity of the store and an email that is not among its
    participants, an authenticated signup succeeds and appends the email to
    the activity's participant list, so that the listing returned by
    [get_activities] afterwards shows the email in that activity; a second
    authenticated signup of the same email in the resulting state is
    refused with status 400 "Student is already signed up", leaves the state
    as it is, and the email occurs exactly once in the list. *)
Theorem signup_appends_then_rejects activity_name email request st a :
  activities st !! activity_name = Some a →
  email ∉ participants a →
  authenticated request st →
  ∃ st' listing a',
    signup_for_activity activity_name email request st
    = (Return [("message",
                "Signed up " +:+ email +:+ " for " +:+ activity_name)], st')
    ∧ get_activities st' = (Return listing, st')
    ∧ listing !! activity_name = Some a'
    ∧ participants a' = participants a ++ [email]
    ∧ email ∈ participants a'
    ∧ occurrences email (participants a') = 1%nat
    ∧ ∀ request',
        authenticated request' st' →
        signup_for_activity activity_name email request' st'
        = (HTTPException 400 "Student is already signed up", st').
Proof.
  intros Ha Hin Hauth.
  pose proof (signup_ok _ _ _ _ _ Hauth Ha Hin) as Hok.
  eexists _, _, (set_participants (participants a ++ [email]) a).
  split; [exact Hok|]. split; [reflexivity|]. simpl.
  assert (Hlast : email ∈ participants a ++ [email])
    by (apply elem_of_app; right; apply list_elem_of_singleton; done).
  split_and!.
  - apply lookup_insert_eq.
  - done.
  - done.
  - rewrite occurrences_app, occurrences_absent by done.
    by rewrite occurrences_cons_eq.
  - intros request' Hauth'.
    eapply signup_already; [done | apply lookup_insert_eq | done].
Qed.

Lemma signup_appends_then_rejects_witness :
  ∃ st' listing a',
    signup_for_activity "Chess Club" "new@x.edu"
      (request_with_cookie token_example) state_logged_in
    = (Return [("message", "Signed up new@x.edu for Chess Club")], st')
    ∧ get_activities st' = (Return listing, st')
    ∧ listing !! "Chess Club" = Some a'
    ∧ participants a'
      = ["michael@mergington.edu"; "daniel@mergington.edu"] ++ ["new@x.edu"]
    ∧ "new@x.edu" ∈ participants a'
    ∧ occurrences "new@x.edu" (participants a') = 1%nat
    ∧ ∀ request',
        authenticated request' st' →
        signup_for_activity "Chess Club" "new@x.edu" request' st'
        = (HTTPException 400 "Student is already signed up", st').
Proof.
  apply (signup_appends_then_rejects "Chess Club" "new@x.edu"
           (request_with_cookie token_example) state_logged_in
           (mkActivity "Learn strategies and compete in chess tournaments"
              "Fridays, 3:30 PM - 5:00 PM" 12
              ["michael@mergington.edu"; "daniel@mergington.edu"])).
  - vm_compute. reflexivity.
  - simpl. apply (bool_decide_unpack _). vm_compute. reflexivity.
  - exists token_example. split; [vm_compute; reflexivity|].
    split; [discriminate|]. exists "ms.rivera". vm_compute. reflexivity.
Defined.

(** ** Unregistering *)

(** C2: in every state the process can reach, for an activity of the store
    and an email among its participants, an authenticated unregister
    succeeds and removes exactly one occurrence of the email (the first),
    keeping the others in order; it is not idempotent: an authenticated
    unregister of the same email in the resulting state is refused with
    status 400 "Student is not signed up for this activity" and leaves the
    state as it is. *)
Theorem unregister_removes_once_then_rejects activity_name email request st a :
  reachable st →
  activities st !! activity_name = Some a →
  email ∈ participants a →
  authenticated request st →
  ∃ st' a' l1 l2,
    unregister_from_activity activity_name email request st
    = (Return [("message",
                "Unregistered " +:+ email +:+ " from " +:+ activity_name)], st')
    ∧ activities st' !! activity_name = Some a'
    ∧ participants a = l1 ++ (email :: l2)
    ∧ participants a' = l1 ++ l2
    ∧ S (occurrences email (participants a'))
      = occurrences email (participants a)
    ∧ ∀ request',
        authenticated request' st' →
        unregister_from_activity activity_name email request' st'
        = (HTTPException 400 "Student is not signed up for this activity",
           st').
Proof.
  intros Hreach Ha Hin Hauth.
  destruct (unregister_ok _ _ _ _ _ Hauth Ha Hin)
    as (l1 & l2 & Hsplit & Hl1 & Hok).
  eexists _, (set_participants (l1 ++ l2) a), l1, l2.
  split; [exact Hok|]. simpl. split_and!.
  - apply lookup_insert_eq.
  - done.
  - done.
  - rewrite Hsplit, !occurrences_app, occurrences_cons_eq. lia.
  - intros request' Hauth'.
    eapply unregister_not_signed_up; [done | apply lookup_insert_eq |].
    simpl. pose proof (reachable_no_duplicates _ Hreach _ _ Ha) as Hnodup.
    rewrite Hsplit in Hnodup.
    apply NoDup_app in Hnodup as (_ & Hdisj & Hl2).
    apply NoDup_cons in Hl2 as [Hl2 _].
    rewrite elem_of_app. by intros [?|?].
Qed.

Lemma unregister_removes_once_then_rejects_witness :
  ∃ st' a' l1 l2,
    unregister_from_activity "Chess Club" "daniel@mergington.edu"
      (request_with_cookie token_example) state_logged_in
    = (Return [("message",
                "Unregistered daniel@mergington.edu from Chess Club")], st')
    ∧ activities st' !! "Chess Club" = Some a'
    ∧ ["michael@mergington.edu"; "daniel@mergington.edu"]
      = l1 ++ ("daniel@mergington.edu" :: l2)
    ∧ participants a' = l1 ++ l2
    ∧ S (occurrences "daniel@mergington.edu" (participants a'))
      = occurrences "daniel@mergington.edu"
          ["michael@mergington.edu"; "daniel@mergington.edu"]
    ∧ ∀ request',
        authenticated request' st' →
        unregister_from_activity "Chess Club" "daniel@mergington.edu"
          request' st'
        = (HTTPException 400 "Student is not signed up for this activity",
           st').
Proof.
  apply (unregister_removes_once_then_rejects "Chess Club"
           "daniel@mergington.edu" (request_with_cookie token_example)
           state_logged_in
           (mkActivity "Learn strategies and compete in chess tournaments"
              "Fridays, 3:30 PM - 5:00 PM" 12
              ["michael@mergington.edu"; "daniel@mergington.edu"])).
  - apply reachable_call; [apply reachable_startup|].
    vm_compute. reflexivity.
  - vm_compute. reflexivity.
  - simpl. apply (bool_decide_unpack _). vm_compute. reflexivity.
  - exists token_example. split; [vm_compute; reflexivity|].
    split; [discriminate|]. exists "ms.rivera". vm_compute. reflexivity.
Defined.

(** ** Order of the checks *)

(** C3: signup and unregister check authentication before they look the
    activity up.  For an activity name that is not in the store, a caller
    without a valid session gets status 401 and a caller with one gets
    status 404 "Activity not found", from either handler; the state is
    untouched. *)
Theorem authentication_before_lookup activity_name email request st :
  activities st !! activity_name = None →
  (¬ authenticated request st →
     signup_for_activity activity_name email request st
     = (HTTPException 401 "Admin authentication required", st)
     ∧ unregister_from_activity activity_name email request st
       = (HTTPException 401 "Admin authentication required", st))
  ∧ (authenticated request st →
     signup_for_activity activity_name email request st
     = (HTTPException 404 "Activity not found", st)
     ∧ unregister_from_activity activity_name email request st
       = (HTTPException 404 "Activity not found", st)).
Proof.
  intros Hnone. split; intros Hauth; split.
  - by apply signup_unauthenticated.
  - by apply unregister_unauthenticated.
  - by apply signup_not_found.
  - by apply unregister_not_found.
Qed.

Lemma authentication_before_lookup_witness :
  (signup_for_activity "Knitting" "new@x.edu"
     (mkRequest ∅ ∅) state_logged_in
   = (HTTPException 401 "Admin authentication required", state_logged_in)
   ∧ unregister_from_activity "Knitting" "new@x.edu"
       (mkRequest ∅ ∅) state_logged_in
     = (HTTPException 401 "Admin authentication required", state_logged_in))
  ∧ (signup_for_activity "Knitting" "new@x.edu"
       (request_with_cookie token_example) state_logged_in
     = (HTTPException 404 "Activity not found", state_logged_in)
     ∧ unregister_from_activity "Knitting" "new@x.edu"
         (request_with_cookie token_example) state_logged_in
       = (HTTPException 404 "Activity not found", state_logged_in)).
Proof.
  split.
  - apply (authentication_before_lookup "Knitting" "new@x.edu"
             (mkRequest ∅ ∅) state_logged_in).
    + vm_compute. reflexivity.
    + intros (tok & Htok & _). vm_compute in Htok. discriminate.
  - apply (authentication_before_lookup "Knitting" "new@x.edu"
             (request_with_cookie token_example) state_logged_in).
    + vm_compute. reflexivity.
    + exists token_example. split; [vm_compute; reflexivity|].
      split; [discriminate|]. exists "ms.rivera". vm_compute. reflexivity.
Defined.

(** ** Session tokens *)

(** C4, as the specification states it, fails: [admin_login] does not look
    at the session store before it stores the generated token.  Here
    ms.rivera holds the session of [token_example]; the generator returns
    the same value for mr.okafor's login, the login succeeds, and the
    session now belongs to mr.okafor. *)
Lemma login_token_not_checked :
  reachable state_logged_in
  ∧ is_uuid4_hex token_example = true
  ∧ sessions state_logged_in !! token_example = Some "ms.rivera"
  ∧ ∃ st',
      admin_login (login_payload "mr.okafor" "granite-7") token_example
        state_logged_in
      = (Return ([("message", "logged in"); ("token", token_example)],
                 [set_cookie "admin_token" token_example true "lax"]), st')
      ∧ sessions st' !! token_example = Some "mr.okafor".
Proof.
  split; [apply state_logged_in_reachable|].
  split; [apply token_example_possible|].
  split; [by vm_compute|].
  eexists. split; [by vm_compute|]. by vm_compute.
Qed.

(** C4 (amended): a successful login stores the generated token with the
    user name, whatever the session store holds: the new store is the old
    one with that one entry written, so the sessions under all other tokens
    are as before, and no session is overwritten when the generated token
    is not yet a key. *)
Theorem login_stores_token payload uuid4_hex st r st' :
  admin_login payload uuid4_hex st = (Return r, st') →
  ∃ user,
    payload !! "username" = Some (PyStr user)
    ∧ r = ([("message", "logged in"); ("token", uuid4_hex)],
           [set_cookie "admin_token" uuid4_hex true "lax"])
    ∧ sessions st' = <[uuid4_hex := user]> (sessions st)
    ∧ (∀ tok, tok ≠ uuid4_hex → sessions st' !! tok = sessions st !! tok)
    ∧ (sessions st !! uuid4_hex = None → sessions st ⊆ sessions st').
Proof.
  unfold admin_login, dict_get.
  destruct (negb (truthy (default PyNone (payload !! "username")))
            || negb (truthy (default PyNone (payload !! "password"))));
    [done|].
  destruct (negb (hashable (default PyNone (payload !! "username"))));
    [done|].
  unfold mbind, handler_bind, gets. simpl.
  destruct (payload !! "username") as [[| | | |user| |]|]; try done. simpl.
  destruct (teachers st !! user) as [stored|]; [|done].
  destruct (str_ne stored (default PyNone (payload !! "password"))); [done|].
  simpl. intros [= <- <-]. exists user. simpl. split_and!; try done.
  - intros tok Hne. by rewrite lookup_insert_ne.
  - intros Hfresh. by apply insert_subseteq.
Qed.

Lemma login_stores_token_witness :
  ∃ user,
    login_payload "ms.rivera" "tulip-42" !! "username" = Some (PyStr user)
    ∧ sessions state_logged_in
      = <[token_example := user]> (sessions state_started)
    ∧ (∀ tok, tok ≠ token_example →
         sessions state_logged_in !! tok = sessions state_started !! tok)
    ∧ (sessions state_started !! token_example = None →
       sessions state_started ⊆ sessions state_logged_in).
Proof.
  destruct (login_stores_token (login_payload "ms.rivera" "tulip-42")
              token_example state_started
              ([("message", "logged in"); ("token", token_example)],
               [set_cookie "admin_token" token_example true "lax"])
              state_logged_in) as (user & Huser & _ & Hrest).
  - vm_compute. reflexivity.
  - exists user. split; [exact Huser | exact Hrest].
Defined.

(** ** The roster invariant *)

(** C5: no email appears twice in one activity's participant list.  This
    holds of the seeded activities, at the end of startup, and is kept by
    every call (the redirect, the listing, signup, unregister, login and
    logout, with any arguments), hence it holds in every reachable
    state. *)
Theorem no_duplicates_invariant :
  no_duplicate_participants module_state
  ∧ (∀ file, no_duplicate_participants (startup_event file module_state).2)
  ∧ (∀ c st,
       no_duplicate_participants st → no_duplicate_participants (run c st))
  ∧ (∀ st, reachable st → no_duplicate_participants st).
Proof.
  split_and!.
  - intros name a. apply seed_no_duplicates.
  - apply startup_no_duplicates.
  - apply run_no_duplicates.
  - apply reachable_no_duplicates.
Qed.

Lemma no_duplicates_invariant_witness :
  no_duplicate_participants state_math_club_full.
Proof.
  apply no_duplicates_invariant.
  apply reachable_calls.
  - apply reachable_call; [apply reachable_startup|].
    vm_compute. reflexivity.
  - unfold math_club_signups. simpl. repeat constructor.
Defined.

(** ** Login *)

Lemma str_ne_false s v : str_ne s v = false ↔ v = PyStr s.
Proof.
  destruct v as [| | | |s'| |]; simpl; try (split; [done | discriminate]).
  rewrite negb_false_iff. split.
  - intros Heq. apply String.eqb_eq in Heq. by subst.
  - intros [= ->]. apply String.eqb_refl.
Qed.

Lemma dict_get_str payload k s :
  dict_get payload k = PyStr s ↔ payload !! k = Some (PyStr s).
Proof.
  unfold dict_get. destruct (payload !! k) as [v|]; simpl.
  - split; [by intros -> | by intros [= ->]].
  - split; discriminate.
Qed.

(** Past the missing-field check, [admin_login] goes by the type of the
    user name. *)
Lemma login_truthy payload uuid4_hex st :
  truthy (dict_get payload "username") = true →
  truthy (dict_get payload "password") = true →
  admin_login payload uuid4_hex st
  = match dict_get payload "username" with
    | PyStr user =>
        match teachers st !! user with
        | None => (HTTPException 401 "invalid credentials", st)
        | Some stored =>
            if str_ne stored (dict_get payload "password")
            then (HTTPException 401 "invalid credentials", st)
            else (Return ([("message", "logged in"); ("token", uuid4_hex)],
                          [set_cookie "admin_token" uuid4_hex true "lax"]),
                  set_sessions (<[uuid4_hex := user]> (sessions st)) st)
        end
    | PyList _ | PyDict _ => (Uncaught "TypeError", st)
    | _ => (HTTPException 401 "invalid credentials", st)
    end.
Proof.
  intros Hu Hp. unfold admin_login. rewrite Hu, Hp. simpl.
  destruct (dict_get payload "username") as [| | | |user| |]; simpl;
    try done.
  unfold mbind, handler_bind, gets. simpl.
  destruct (teachers st !! user) as [stored|]; [|done].
  by destruct (str_ne stored (dict_get payload "password")).
Qed.




(** ** Login, session, logout *)

Lemma require_teacher_session request st tok user :
  get_token_from_request request = Some tok →
  tok ≠ "" →
  sessions st !! tok = Some user →
  require_teacher request st = (Return user, st).
Proof.
  intros Htok Hne Huser.
  unfold require_teacher, mbind, handler_bind, gets. rewrite Htok.
  apply truthy_str_spec in Hne. rewrite Hne. simpl.
  rewrite bool_decide_eq_true_2 by (apply elem_of_dom; eauto). simpl.
  by rewrite Huser.
Qed.

Lemma logout_always_succeeds request st :
  (admin_logout request st).1
  = Return ([("message", "logged out")], [delete_cookie "admin_token"]).
Proof.
  destruct (authenticated_dec request st) as [(tok & Htok & Hne & _)|Hno].
  - by rewrite (logout_authenticated _ _ tok).
  - by rewrite logout_unauthenticated.
Qed.

(** C7, as the specification states it, fails for a teacher entry whose
    user name or password is the empty string: the missing-field guard of
    [admin_login] answers 400 before the directory is consulted.  Here the
    directory holds mr.blank with an empty password. *)
Lemma login_blank_password_refused :
  reachable state_blank
  ∧ teachers state_blank !! "mr.blank" = Some ""
  ∧ admin_login (login_payload "mr.blank" "") token_example state_blank
    = (HTTPException 400 "username and password required", state_blank).
Proof.
  split; [apply reachable_startup|]. split; by vm_compute.
Qed.

(** C7 (amended): for every teacher entry whose user name and password are
    both non-empty, login with them succeeds and returns the generated
    token; a request presenting that token is resolved by [require_teacher]
    to the user name; after a logout with the token, [require_teacher]
    answers 401; a further logout with the same token reports success
    again and changes nothing; and logout reports success for every request
    in every state. *)
Theorem login_resolve_logout payload uuid4_hex request st user password :
  teachers st !! user = Some password →
  user ≠ "" →
  password ≠ "" →
  payload !! "username" = Some (PyStr user) →
  payload !! "password" = Some (PyStr password) →
  is_uuid4_hex uuid4_hex = true →
  get_token_from_request request = Some uuid4_hex →
  ∃ st1 st2,
    admin_login payload uuid4_hex st
    = (Return ([("message", "logged in"); ("token", uuid4_hex)],
               [set_cookie "admin_token" uuid4_hex true "lax"]), st1)
    ∧ require_teacher request st1 = (Return user, st1)
    ∧ admin_logout request st1
      = (Return ([("message", "logged out")],
                 [delete_cookie "admin_token"]), st2)
    ∧ require_teacher request st2
      = (HTTPException 401 "Admin authentication required", st2)
    ∧ admin_logout request st2
      = (Return ([("message", "logged out")],
                 [delete_cookie "admin_token"]), st2)
    ∧ ∀ request' st',
        (admin_logout request' st').1
        = Return ([("message", "logged out")],
                  [delete_cookie "admin_token"]).
Proof.
  intros Hentry Hune Hpne Hu Hp Htoken Hreq.
  pose proof (uuid4_hex_nonempty _ Htoken) as Htne.
  eexists _, _. split.
  { rewrite (login_strings _ _ _ _ _ Hu Hp Hune Hpne), Hentry.
    by rewrite decide_True. }
  split.
  { apply (require_teacher_session _ _ uuid4_hex); [done..|].
    apply lookup_insert_eq. }
  split; [by apply logout_authenticated|].
  assert (Hout : ¬ authenticated request
            (set_sessions
               (delete uuid4_hex
                  (sessions
                     (set_sessions (<[uuid4_hex:=user]> (sessions st)) st)))
               (set_sessions (<[uuid4_hex:=user]> (sessions st)) st))).
  { intros (tok & Htok & _ & Hsome). rewrite Hreq in Htok.
    injection Htok as <-. simpl in Hsome.
    rewrite lookup_delete_eq in Hsome. by destruct Hsome. }
  split; [by apply require_teacher_unauthenticated|].
  split; [by apply logout_unauthenticated|].
  apply logout_always_succeeds.
Qed.

Lemma login_resolve_logout_witness :
  ∃ st1 st2,
    admin_login (login_payload "ms.rivera" "tulip-42") token_example
      state_started
    = (Return ([("message", "logged in"); ("token", token_example)],
               [set_cookie "admin_token" token_example true "lax"]), st1)
    ∧ require_teacher (request_with_header token_example) st1
      = (Return "ms.rivera", st1)
    ∧ admin_logout (request_with_header token_example) st1
      = (Return ([("message", "logged out")],
                 [delete_cookie "admin_token"]), st2)
    ∧ require_teacher (request_with_header token_example) st2
      = (HTTPException 401 "Admin authentication required", st2)
    ∧ admin_logout (request_with_header token_example) st2
      = (Return ([("message", "logged out")],
                 [delete_cookie "admin_token"]), st2)
    ∧ ∀ request' st',
        (admin_logout request' st').1
        = Return ([("message", "logged out")],
                  [delete_cookie "admin_token"]).
Proof.
  apply (login_resolve_logout (login_payload "ms.rivera" "tulip-42")
           token_example (request_with_header token_example) state_started
           "ms.rivera" "tulip-42").
  - vm_compute. reflexivity.
  - discriminate.
  - discriminate.
  - vm_compute. reflexivity.
  - vm_compute. reflexivity.
  - vm_compute. reflexivity.
  - vm_compute. reflexivity.
Defined.

(** ** Capacity *)

(** C8: signup performs no capacity check.  For an activity of the store
    whose participant list is already as long as its [max_participants] or
    longer, an authenticated signup of an email that is not in the list
    still succeeds and appends the email, so the list ends up strictly
    longer than [max_participants]. *)
Theorem signup_ignores_capacity activity_name email request st a :
  activities st !! activity_name = Some a →
  email ∉ participants a →
  authenticated request st →
  max_participants a ≤ Z.of_nat (length (participants a)) →
  ∃ st' a',
    signup_for_activity activity_name email request st
    = (Return [("message",
                "Signed up " +:+ email +:+ " for " +:+ activity_name)], st')
    ∧ activities st' !! activity_name = Some a'
    ∧ participants a' = participants a ++ [email]
    ∧ max_participants a' = max_participants a
    ∧ max_participants a' < Z.of_nat (length (participants a')).
Proof.
  intros Ha Hin Hauth Hfull.
  eexists _, (set_participants (participants a ++ [email]) a).
  split; [by apply signup_ok|]. simpl. split_and!.
  - apply lookup_insert_eq.
  - done.
  - done.
  - rewrite length_app. simpl. lia.
Qed.

Lemma signup_ignores_capacity_witness :
  ∃ st' a',
    signup_for_activity "Math Club" "s9@mergington.edu"
      (request_with_cookie token_example) state_math_club_full
    = (Return [("message", "Signed up s9@mergington.edu for Math Club")], st')
    ∧ activities st' !! "Math Club" = Some a'
    ∧ participants a'
      = [ "james@mergington.edu"; "benjamin@mergington.edu";
          "s1@mergington.edu"; "s2@mergington.edu"; "s3@mergington.edu";
          "s4@mergington.edu"; "s5@mergington.edu"; "s6@mergington.edu";
          "s7@mergington.edu"; "s8@mergington.edu" ]
        ++ ["s9@mergington.edu"]
    ∧ max_participants a' = 10
    ∧ max_participants a' < Z.of_nat (length (participants a')).
Proof.
  apply (signup_ignores_capacity "Math Club" "s9@mergington.edu"
           (request_with_cookie token_example) state_math_club_full
           (mkActivity
              "Solve challenging problems and participate in math competitions"
              "Tuesdays, 3:30 PM - 4:30 PM" 10
              [ "james@mergington.edu"; "benjamin@mergington.edu";
                "s1@mergington.edu"; "s2@mergington.edu"; "s3@mergington.edu";
                "s4@mergington.edu"; "s5@mergington.edu"; "s6@mergington.edu";
                "s7@mergington.edu"; "s8@mergington.edu" ])).
  - vm_compute. reflexivity.
  - simpl. apply (bool_decide_unpack _). vm_compute. reflexivity.
  - exists token_example. split; [vm_compute; reflexivity|].
    split; [discriminate|]. exists "ms.rivera". vm_compute. reflexivity.
  - simpl. lia.
Defined.

(** ** Frame *)

(** C9: whatever its arguments and whether it succeeds or fails, a call to
    signup or to unregister leaves the set of activity names, the
    description, schedule and [max_participants] of every activity, the
    participant lists of all activities other than the named one, the
    teacher directory and the session store unchanged. *)
Theorem roster_calls_frame activity_name email request st :
  unchanged_outside activity_name st
    (signup_for_activity activity_name email request st).2
  ∧ unchanged_outside activity_name st
      (unregister_from_activity activity_name email request st).2.
Proof.
  split; [apply signup_unchanged | apply unregister_unchanged].
Qed.

(** ** Empty login fields *)

(** C10: a login payload whose user name or password is present but is the
    empty string is answered with status 400 "username and password
    required", not with 401, whatever the teacher directory holds (also
    when the empty string is the password stored for that user name); the
    state is unchanged. *)
Theorem login_empty_string_is_missing payload uuid4_hex st :
  payload !! "username" = Some (PyStr "")
  ∨ payload !! "password" = Some (PyStr "") →
  admin_login payload uuid4_hex st
  = (HTTPException 400 "username and password required", st).
Proof.
  intros Hempty. apply login_missing. unfold dict_get.
  destruct Hempty as [-> | ->]; [by left | by right].
Qed.

Lemma login_empty_string_is_missing_witness :
  teachers state_blank !! "mr.blank" = Some ""
  ∧ admin_login (login_payload "mr.blank" "") token_example state_blank
    = (HTTPException 400 "username and password required", state_blank).
Proof.
  split; [vm_compute; reflexivity|].
  apply (login_empty_string_is_missing (login_payload "mr.blank" "")
           token_example state_blank).
  right. vm_compute. reflexivity.
Defined.

(** * Further properties of the handlers *)

(** ** Where the token is read from *)

(** X1: [get_token_from_request] returns a token exactly when the
    [admin_token] cookie is a non-empty string, which is then the token, or
    the cookie is absent or empty and the [X-Admin-Token] header is set,
    which is then the token (empty or not). *)
Theorem token_from_cookie_else_header request tok :
  get_token_from_request request = Some tok
  ↔ (cookies request !! "admin_token" = Some tok ∧ tok ≠ "")
    ∨ ((cookies request !! "admin_token" = None
        ∨ cookies request !! "admin_token" = Some "")
       ∧ headers request !! "X-Admin-Token" = Some tok).
Proof.
  unfold get_token_from_request.
  destruct (cookies request !! "admin_token") as [c|]; simpl.
  - destruct (truthy_str c) eqn:Hc; simpl.
    + apply truthy_str_spec in Hc. split.
      * intros [= <-]. by left.
      * intros [[[= <-] _] | [[? | [= ->]] _]]; done.
    + assert (c = "") as ->.
      { destruct (decide (c = "")) as [|Hne]; [done|].
        apply truthy_str_spec in Hne. congruence. }
      split.
      * intros Hh. right. split; [by right | done].
      * intros [[[= <-] Hne] | [_ Hh]]; done.
  - split.
    + intros Hh. right. split; [by left | done].
    + intros [[? _] | [_ Hh]]; done.
Qed.

(** X2: a non-empty cookie that is not a session key shadows the header:
    the request is answered 401 by [require_teacher], whatever the header
    carries, a valid token included. *)
Theorem stale_cookie_shadows_header request st c :
  cookies request !! "admin_token" = Some c →
  c ≠ "" →
  sessions st !! c = None →
  require_teacher request st
  = (HTTPException 401 "Admin authentication required", st).
Proof.
  intros Hc Hne Hnone. apply require_teacher_unauthenticated.
  intros (tok & Htok & _ & Hsome).
  unfold get_token_from_request in Htok. rewrite Hc in Htok. simpl in Htok.
  apply truthy_str_spec in Hne. rewrite Hne in Htok. simpl in Htok.
  injection Htok as <-. rewrite Hnone in Hsome. by destruct Hsome.
Qed.

Lemma stale_cookie_shadows_header_witness :
  headers request_stale_cookie !! "X-Admin-Token" = Some token_example
  ∧ sessions state_logged_in !! token_example = Some "ms.rivera"
  ∧ require_teacher request_stale_cookie state_logged_in
    = (HTTPException 401 "Admin authentication required", state_logged_in).
Proof.
  split; [vm_compute; reflexivity|]. split; [vm_compute; reflexivity|].
  apply (stale_cookie_shadows_header request_stale_cookie state_logged_in
           "stale").
  - vm_compute. reflexivity.
  - discriminate.
  - vm_compute. reflexivity.
Defined.

(** X3: [require_teacher] either returns the user name stored under the
    presented, non-empty token, or raises 401; it never fails with
    [KeyError] and never changes the state. *)
Theorem require_teacher_outcomes request st :
  (∃ tok user,
     get_token_from_request request = Some tok
     ∧ tok ≠ ""
     ∧ sessions st !! tok = Some user
     ∧ require_teacher request st = (Return user, st))
  ∨ (¬ authenticated request st
     ∧ require_teacher request st
       = (HTTPException 401 "Admin authentication required", st)).
Proof.
  destruct (authenticated_dec request st)
    as [(tok & Htok & Hne & user & Huser)|Hno].
  - left. exists tok, user. split_and!; try done.
    by apply (require_teacher_session _ _ tok).
  - right. split; [done|]. by apply require_teacher_unauthenticated.
Qed.

(** ** Outcomes of the roster handlers *)

Lemma signup_outcomes activity_name email request st :
  (∃ r, (signup_for_activity activity_name email request st).1 = Return r)
  ∨ (∃ code detail,
       signup_for_activity activity_name email request st
       = (HTTPException code detail, st)
       ∧ (code = 401 ∨ code = 404 ∨ code = 400)).
Proof.
  destruct (authenticated_dec request st) as [Hauth|Hauth].
  - destruct (activities st !! activity_name) as [a|] eqn:Ha.
    + destruct (decide (email ∈ participants a)) as [Hin|Hin].
      * right. eexists _, _. split; [by eapply signup_already|]. auto.
      * left. eexists. by rewrite (signup_ok _ _ _ _ a).
    + right. eexists _, _. split; [by apply signup_not_found|]. auto.
  - right. eexists _, _. split; [by apply signup_unauthenticated|]. auto.
Qed.

Lemma unregister_outcomes activity_name email request st :
  (∃ r, (unregister_from_activity activity_name email request st).1
        = Return r)
  ∨ (∃ code detail,
       unregister_from_activity activity_name email request st
       = (HTTPException code detail, st)
       ∧ (code = 401 ∨ code = 404 ∨ code = 400)).
Proof.
  destruct (authenticated_dec request st) as [Hauth|Hauth].
  - destruct (activities st !! activity_name) as [a|] eqn:Ha.
    + destruct (decide (email ∈ participants a)) as [Hin|Hin].
      * left. destruct (unregister_ok _ _ request _ _ Hauth Ha Hin)
          as (l1 & l2 & _ & _ & ->). by eexists.
      * right. eexists _, _.
        split; [by eapply unregister_not_signed_up|]. auto.
    + right. eexists _, _. split; [by apply unregister_not_found|]. auto.
  - right. eexists _, _. split; [by apply unregister_unauthenticated|]. auto.
Qed.

(** X4: signup and unregister either return their message or raise an
    [HTTPException] with status 401, 404 or 400 and leave the state as it
    was; no other exception escapes them (in particular [list.remove] never
    raises [ValueError], being guarded by the membership test). *)
Theorem roster_handlers_outcomes activity_name email request st :
  ((∃ r, (signup_for_activity activity_name email request st).1 = Return r)
   ∨ (∃ code detail,
        signup_for_activity activity_name email request st
        = (HTTPException code detail, st)
        ∧ (code = 401 ∨ code = 404 ∨ code = 400)))
  ∧ ((∃ r, (unregister_from_activity activity_name email request st).1
           = Return r)
     ∨ (∃ code detail,
          unregister_from_activity activity_name email request st
          = (HTTPException code detail, st)
          ∧ (code = 401 ∨ code = 404 ∨ code = 400))).
Proof. split; [apply signup_outcomes | apply unregister_outcomes]. Qed.

(** X5: a caller without a valid session cannot touch a roster: for every
    activity name, in the store or not, and every email, in the list or
    not, signup and unregister answer 401 and the state is unchanged. *)
Theorem unauthenticated_cannot_modify activity_name email request st :
  ¬ authenticated request st →
  signup_for_activity activity_name email request st
  = (HTTPException 401 "Admin authentication required", st)
  ∧ unregister_from_activity activity_name email request st
    = (HTTPException 401 "Admin authentication required", st).
Proof.
  intros Hno. split.
  - by apply signup_unauthenticated.
  - by apply unregister_unauthenticated.
Qed.

Lemma unauthenticated_cannot_modify_witness :
  signup_for_activity "Chess Club" "new@x.edu"
    (request_with_header token_other) state_logged_in
  = (HTTPException 401 "Admin authentication required", state_logged_in)
  ∧ unregister_from_activity "Chess Club" "michael@mergington.edu"
      (request_with_header token_other) state_logged_in
    = (HTTPException 401 "Admin authentication required", state_logged_in).
Proof.
  split.
  - apply (unauthenticated_cannot_modify "Chess Club" "new@x.edu"
             (request_with_header token_other) state_logged_in).
    intros (tok & Htok & _ & user & Huser).
    vm_compute in Htok. injection Htok as <-.
    vm_compute in Huser. discriminate.
  - apply (unauthenticated_cannot_modify "Chess Club"
             "michael@mergington.edu"
             (request_with_header token_other) state_logged_in).
    intros (tok & Htok & _ & user & Huser).
    vm_compute in Htok. injection Htok as <-.
    vm_compute in Huser. discriminate.
Defined.

(** ** Signup and unregister composed *)

Lemma list_remove_app_last x l : x ∉ l → list_remove x (l ++ [x]) = Some l.
Proof.
  induction l as [|y l IH]; intros Hx; simpl.
  - by rewrite String.eqb_refl.
  - apply not_elem_of_cons in Hx as [Hne Hx].
    destruct (String.eqb_spec y x) as [->|_]; [done|]. by rewrite IH.
Qed.

(** X6: unregistering right after a successful signup of the same email
    undoes it: the second call succeeds and the whole state is again the
    one before the signup. *)
Theorem signup_then_unregister_restores activity_name email request st a :
  activities st !! activity_name = Some a →
  email ∉ participants a →
  authenticated request st →
  unregister_from_activity activity_name email request
    (signup_for_activity activity_name email request st).2
  = (Return [("message",
              "Unregistered " +:+ email +:+ " from " +:+ activity_name)], st).
Proof.
  intros Ha Hin Hauth. rewrite (signup_ok _ _ _ _ a) by done. simpl.
  set (a1 := set_participants (participants a ++ [email]) a).
  set (st1 := set_activities (<[activity_name:=a1]> (activities st)) st).
  assert (Hauth1 : authenticated request st1) by done.
  assert (Ha1 : activities st1 !! activity_name = Some a1)
    by apply lookup_insert_eq.
  assert (Hin1 : email ∈ participants a1).
  { simpl. apply elem_of_app. right. by apply list_elem_of_singleton. }
  destruct (unregister_ok _ _ _ _ _ Hauth1 Ha1 Hin1)
    as (l1 & l2 & Hsplit & Hl1 & ->).
  f_equal. simpl in Hsplit.
  assert (Hrest : l1 ++ l2 = participants a).
  { pose proof (list_remove_app_last email (participants a) Hin) as Hrem.
    destruct (list_remove_split email (participants a ++ [email]))
      as (k1 & k2 & Hk & Hk1 & Hkrem); [done|].
    rewrite Hrem in Hkrem. injection Hkrem as Hkeq.
    rewrite Hsplit in Hk.
    assert (l1 = k1 ∧ l2 = k2) as [-> ->]; [|done].
    clear -Hk Hl1 Hk1. revert k1 Hk Hk1.
    induction l1 as [|y l1 IH]; intros [|z k1] Hk Hk1; simpl in Hk.
    - by injection Hk as ->.
    - injection Hk as <- _. destruct Hk1. by left.
    - injection Hk as -> _. destruct Hl1. by left.
    - injection Hk as <- Hk.
      apply not_elem_of_cons in Hl1 as [_ Hl1].
      apply not_elem_of_cons in Hk1 as [_ Hk1].
      destruct (IH Hl1 k1 Hk Hk1) as [-> ->]. done. }
  rewrite Hrest. unfold st1, a1, set_activities. simpl.
  rewrite insert_insert_eq.
  replace (set_participants (participants a)
             (set_participants (participants a ++ [email]) a))
    with a by (by destruct a).
  rewrite insert_id by done. by destruct st.
Qed.

Lemma signup_then_unregister_restores_witness :
  unregister_from_activity "Chess Club" "new@x.edu"
    (request_with_cookie token_example)
    (signup_for_activity "Chess Club" "new@x.edu"
       (request_with_cookie token_example) state_logged_in).2
  = (Return [("message", "Unregistered new@x.edu from Chess Club")],
     state_logged_in).
Proof.
  apply (signup_then_unregister_restores "Chess Club" "new@x.edu"
           (request_with_cookie token_example) state_logged_in chess_club).
  - vm_compute. reflexivity.
  - simpl. apply (bool_decide_unpack _). vm_compute. reflexivity.
  - exists token_example. split; [vm_compute; reflexivity|].
    split; [discriminate|]. exists "ms.rivera". vm_compute. reflexivity.
Defined.

(** X7: the other way round is not the identity.  In a reachable state,
    unregistering a listed email and signing it up again both succeed and
    move the email to the end of the list: the list holds the same
    participants, the others in their old order. *)
Theorem unregister_then_signup_moves_last activity_name email request st a :
  reachable st →
  activities st !! activity_name = Some a →
  email ∈ participants a →
  authenticated request st →
  ∃ st2 a2 l1 l2,
    signup_for_activity activity_name email request
      (unregister_from_activity activity_name email request st).2
    = (Return [("message",
                "Signed up " +:+ email +:+ " for " +:+ activity_name)], st2)
    ∧ activities st2 !! activity_name = Some a2
    ∧ participants a = l1 ++ (email :: l2)
    ∧ participants a2 = (l1 ++ l2) ++ [email]
    ∧ participants a2 ≡ₚ participants a.
Proof.
  intros Hreach Ha Hin Hauth.
  destruct (unregister_ok _ _ _ _ _ Hauth Ha Hin)
    as (l1 & l2 & Hsplit & Hl1 & ->). simpl.
  set (a1 := set_participants (l1 ++ l2) a).
  set (st1 := set_activities (<[activity_name:=a1]> (activities st)) st).
  assert (Hauth1 : authenticated request st1) by done.
  assert (Ha1 : activities st1 !! activity_name = Some a1)
    by apply lookup_insert_eq.
  assert (Hout : email ∉ participants a1).
  { simpl. pose proof (reachable_no_duplicates _ Hreach _ _ Ha) as Hnodup.
    rewrite Hsplit in Hnodup.
    apply NoDup_app in Hnodup as (_ & Hdisj & Hl2).
    apply NoDup_cons in Hl2 as [Hl2 _].
    rewrite elem_of_app. by intros [?|?]. }
  rewrite (signup_ok _ _ _ _ a1) by done.
  eexists _, (set_participants (participants a1 ++ [email]) a1), l1, l2.
  split; [reflexivity|]. simpl. split_and!.
  - apply lookup_insert_eq.
  - done.
  - done.
  - rewrite Hsplit, <- (assoc_L (++)). apply Permutation_app_head.
    symmetry. apply Permutation_cons_append.
Qed.

Lemma unregister_then_signup_moves_last_witness :
  ∃ st2 a2 l1 l2,
    signup_for_activity "Chess Club" "michael@mergington.edu"
      (request_with_cookie token_example)
      (unregister_from_activity "Chess Club" "michael@mergington.edu"
         (request_with_cookie token_example) state_logged_in).2
    = (Return [("message", "Signed up michael@mergington.edu for Chess Club")],
       st2)
    ∧ activities st2 !! "Chess Club" = Some a2
    ∧ participants chess_club = l1 ++ ("michael@mergington.edu" :: l2)
    ∧ participants a2 = (l1 ++ l2) ++ ["michael@mergington.edu"]
    ∧ participants a2 ≡ₚ participants chess_club.
Proof.
  apply (unregister_then_signup_moves_last "Chess Club"
           "michael@mergington.edu" (request_with_cookie token_example)
           state_logged_in chess_club).
  - apply reachable_call; [apply reachable_startup|].
    vm_compute. reflexivity.
  - vm_compute. reflexivity.
  - simpl. apply (bool_decide_unpack _). vm_compute. reflexivity.
  - exists token_example. split; [vm_compute; reflexivity|].
    split; [discriminate|]. exists "ms.rivera". vm_compute. reflexivity.
Defined.

(** X8: the participant list is kept in signup order: two successful
    signups of different new emails for one activity leave the old list
    followed by the first email and then the second. *)
Theorem signups_keep_order activity_name email1 email2 request st a :
  activities st !! activity_name = Some a →
  email1 ∉ participants a →
  email2 ∉ participants a →
  email1 ≠ email2 →
  authenticated request st →
  ∃ st2 a2,
    signup_for_activity activity_name email2 request
      (signup_for_activity activity_name email1 request st).2
    = (Return [("message",
                "Signed up " +:+ email2 +:+ " for " +:+ activity_name)], st2)
    ∧ activities st2 !! activity_name = Some a2
    ∧ participants a2 = participants a ++ [email1; email2].
Proof.
  intros Ha Hin1 Hin2 Hne Hauth.
  rewrite (signup_ok activity_name email1 request st a) by done. simpl.
  set (a1 := set_participants (participants a ++ [email1]) a).
  set (st1 := set_activities (<[activity_name:=a1]> (activities st)) st).
  assert (Hauth1 : authenticated request st1) by done.
  assert (Ha1 : activities st1 !! activity_name = Some a1)
    by apply lookup_insert_eq.
  assert (Hout : email2 ∉ participants a1).
  { simpl. rewrite elem_of_app, list_elem_of_singleton.
    intros [?|?]; [done | congruence]. }
  rewrite (signup_ok _ _ _ _ a1) by done.
  eexists _, (set_participants (participants a1 ++ [email2]) a1).
  split; [reflexivity|]. simpl. split.
  - apply lookup_insert_eq.
  - by rewrite <- (assoc_L (++)).
Qed.

Lemma signups_keep_order_witness :
  ∃ st2 a2,
    signup_for_activity "Chess Club" "b@x.edu"
      (request_with_cookie token_example)
      (signup_for_activity "Chess Club" "a@x.edu"
         (request_with_cookie token_example) state_logged_in).2
    = (Return [("message", "Signed up b@x.edu for Chess Club")], st2)
    ∧ activities st2 !! "Chess Club" = Some a2
    ∧ participants a2 = participants chess_club ++ ["a@x.edu"; "b@x.edu"].
Proof.
  apply (signups_keep_order "Chess Club" "a@x.edu" "b@x.edu"
           (request_with_cookie token_example) state_logged_in chess_club).
  - vm_compute. reflexivity.
  - simpl. apply (bool_decide_unpack _). vm_compute. reflexivity.
  - simpl. apply (bool_decide_unpack _). vm_compute. reflexivity.
  - discriminate.
  - exists token_example. split; [vm_compute; reflexivity|].
    split; [discriminate|]. exists "ms.rivera". vm_compute. reflexivity.
Defined.

(** ** Login in full *)

Lemma login_success_inv payload uuid4_hex st r st' :
  admin_login payload uuid4_hex st = (Return r, st') →
  ∃ user password,
    payload !! "username" = Some (PyStr user)
    ∧ payload !! "password" = Some (PyStr password)
    ∧ user ≠ "" ∧ password ≠ ""
    ∧ teachers st !! user = Some password
    ∧ r = ([("message", "logged in"); ("token", uuid4_hex)],
           [set_cookie "admin_token" uuid4_hex true "lax"])
    ∧ st' = set_sessions (<[uuid4_hex := user]> (sessions st)) st.
Proof.
  intros Hlogin.
  destruct (truthy (dict_get payload "username")) eqn:Hu;
    [|by rewrite login_missing in Hlogin by auto].
  destruct (truthy (dict_get payload "password")) eqn:Hp;
    [|by rewrite login_missing in Hlogin by auto].
  rewrite (login_truthy _ _ _ Hu Hp) in Hlogin.
  destruct (dict_get payload "username") as [| | | |user| |] eqn:Huser;
    try done.
  destruct (teachers st !! user) as [stored|] eqn:Hstored; [|done].
  destruct (str_ne stored (dict_get payload "password")) eqn:Hne; [done|].
  apply str_ne_false in Hne. injection Hlogin as <- <-.
  exists user, stored. simpl in Hu. rewrite Hne in Hp. simpl in Hp.
  apply truthy_str_spec in Hu, Hp. apply dict_get_str in Huser, Hne.
  by split_and!.
Qed.



(** X10: a user name that is not a string never logs in.  When it and the
    password pass the missing-field check, a hashable one (a number,
    [True]) is answered 401, and an unhashable one (a non-empty list or
    object) makes the membership test raise [TypeError], which escapes the
    handler; the state is unchanged either way. *)
Theorem login_username_not_a_string payload uuid4_hex st v :
  payload !! "username" = Some v →
  (∀ s, v ≠ PyStr s) →
  truthy v = true →
  truthy (dict_get payload "password") = true →
  admin_login payload uuid4_hex st
  = (if hashable v then HTTPException 401 "invalid credentials"
     else Uncaught "TypeError", st).
Proof.
  intros Hv Hnot Htv Htp.
  assert (Hget : dict_get payload "username" = v)
    by (unfold dict_get; by rewrite Hv).
  rewrite login_truthy by (by rewrite ?Hget).
  rewrite Hget. destruct v as [| | | |s| |]; try done.
  by destruct (Hnot s).
Qed.

Lemma login_username_not_a_string_witness :
  admin_login
    {[ "username" := PyList [PyStr "ms.rivera"];
       "password" := PyStr "tulip-42" ]} token_example state_started
  = (Uncaught "TypeError", state_started).
Proof.
  apply (login_username_not_a_string
           {[ "username" := PyList [PyStr "ms.rivera"];
              "password" := PyStr "tulip-42" ]} token_example state_started
           (PyList [PyStr "ms.rivera"])).
  - vm_compute. reflexivity.
  - discriminate.
  - vm_compute. reflexivity.
  - vm_compute. reflexivity.
Defined.

Lemma login_failure_frame payload uuid4_hex st :
  (∃ r, (admin_login payload uuid4_hex st).1 = Return r)
  ∨ (admin_login payload uuid4_hex st).2 = st.
Proof.
  destruct (truthy (dict_get payload "username")) eqn:Hu;
    [|right; by rewrite login_missing by auto].
  destruct (truthy (dict_get payload "password")) eqn:Hp;
    [|right; by rewrite login_missing by auto].
  rewrite (login_truthy _ _ _ Hu Hp).
  destruct (dict_get payload "username") as [| | | |user| |];
    try (by right).
  destruct (teachers st !! user) as [stored|]; [|by right].
  destruct (str_ne stored (dict_get payload "password")); [by right|].
  left. by eexists.
Qed.

(** X11: a login never touches the activities or the teacher directory,
    and one that does not succeed, whether by 400, by 401 or by an
    escaping exception, leaves the whole state, the session store included,
    as it was. *)
Theorem login_failure_changes_nothing payload uuid4_hex st :
  activities (admin_login payload uuid4_hex st).2 = activities st
  ∧ teachers (admin_login payload uuid4_hex st).2 = teachers st
  ∧ ((∃ r, (admin_login payload uuid4_hex st).1 = Return r)
     ∨ (admin_login payload uuid4_hex st).2 = st).
Proof.
  destruct (login_frame payload uuid4_hex st) as (Hacts & Htchs & _).
  split_and!; [done..|]. apply login_failure_frame.
Qed.

(** X12: when [teachers.json] cannot be opened or decoded, startup leaves
    an empty directory and keeps the process alive: afterwards no payload
    whatsoever logs in, and no login creates a session. *)
Theorem startup_without_file_no_login st payload uuid4_hex :
  teachers (startup_event None st).2 = ∅
  ∧ (∀ r, (admin_login payload uuid4_hex (startup_event None st).2).1
          ≠ Return r)
  ∧ (admin_login payload uuid4_hex (startup_event None st).2).2
    = (startup_event None st).2.
Proof.
  split; [done|].
  assert (Hfail : ∀ r st',
            admin_login payload uuid4_hex (startup_event None st).2
            ≠ (Return r, st')).
  { intros r st' Hlogin.
    destruct (login_success_inv _ _ _ _ _ Hlogin)
      as (user & password & _ & _ & _ & _ & Hstored & _).
    simpl in Hstored. by rewrite lookup_empty in Hstored. }
  split.
  - intros r Hr.
    apply (Hfail r (admin_login payload uuid4_hex
                      (startup_event None st).2).2).
    rewrite <- Hr. by destruct (admin_login _ _ _).
  - destruct (login_failure_frame payload uuid4_hex (startup_event None st).2)
      as [[r Hr]|Hsame]; [|done].
    destruct (Hfail r (admin_login payload uuid4_hex
                         (startup_event None st).2).2).
    rewrite <- Hr. by destruct (admin_login _ _ _).
Qed.

(** ** Logout and the life of a session *)

Lemma logout_sessions request st :
  (∃ tok, get_token_from_request request = Some tok ∧ tok ≠ ""
          ∧ sessions (admin_logout request st).2 = delete tok (sessions st))
  ∨ (¬ authenticated request st ∧ (admin_logout request st).2 = st).
Proof.
  destruct (authenticated_dec request st) as [(tok & Htok & Hne & _)|Hno].
  - left. exists tok. by rewrite (logout_authenticated _ _ tok).
  - right. by rewrite logout_unauthenticated.
Qed.

(** X13: logout removes the session of the token the request presents and
    nothing else: that token, when non-empty, is no session key afterwards,
    every other token keeps its session, and the activities and the teacher
    directory are untouched. *)
Theorem logout_removes_presented_token_only request st :
  activities (admin_logout request st).2 = activities st
  ∧ teachers (admin_logout request st).2 = teachers st
  ∧ (∀ tok, get_token_from_request request = Some tok → tok ≠ "" →
       sessions (admin_logout request st).2 !! tok = None)
  ∧ (∀ tok, get_token_from_request request ≠ Some tok →
       sessions (admin_logout request st).2 !! tok = sessions st !! tok).
Proof.
  destruct (logout_frame request st) as [Hacts Htchs].
  split_and!; [done..| |].
  - intros tok Htok Hne.
    destruct (logout_sessions request st)
      as [(tok' & Htok' & _ & ->)|[Hno ->]].
    + rewrite Htok in Htok'. injection Htok' as <-. apply lookup_delete_eq.
    + destruct (sessions st !! tok) as [user|] eqn:Hs; [|done].
      destruct Hno. exists tok. by rewrite Hs.
  - intros tok Hother.
    destruct (logout_sessions request st)
      as [(tok' & Htok' & _ & ->)|[_ ->]]; [|done].
    apply lookup_delete_ne. congruence.
Qed.

Lemma run_teachers c st : teachers (run c st) = teachers st.
Proof.
  destruct c as [| |n e r|n e r|payload tok|r]; simpl.
  - done.
  - done.
  - apply (signup_unchanged n e r st).
  - apply (unregister_unchanged n e r st).
  - apply (login_frame payload tok st).
  - apply (logout_frame r st).
Qed.

(** The activity names and the fixed fields of the activities, seen from the
    state after a call. *)
Lemma run_activities c st :
  dom (activities (run c st)) = dom (activities st)
  ∧ ∀ name a', activities (run c st) !! name = Some a' →
      ∃ a, activities st !! name = Some a
           ∧ description a' = description a
           ∧ schedule a' = schedule a
           ∧ max_participants a' = max_participants a.
Proof.
  assert (Hsame : ∀ acts : gmap string Activity,
            acts = activities st →
            dom acts = dom (activities st)
            ∧ ∀ name a', acts !! name = Some a' →
                ∃ a, activities st !! name = Some a
                     ∧ description a' = description a
                     ∧ schedule a' = schedule a
                     ∧ max_participants a' = max_participants a).
  { intros acts ->. split; [done|]. intros name a' Ha'. by exists a'. }
  assert (Hframe : ∀ n st', unchanged_outside n st st' →
            dom (activities st') = dom (activities st)
            ∧ ∀ name a', activities st' !! name = Some a' →
                ∃ a, activities st !! name = Some a
                     ∧ description a' = description a
                     ∧ schedule a' = schedule a
                     ∧ max_participants a' = max_participants a).
  { intros n st' (Hdom & Hfields & _). split; [done|].
    intros name a' Ha'.
    assert (is_Some (activities st !! name)) as [a Ha].
    { apply elem_of_dom. rewrite <- Hdom. apply elem_of_dom. eauto. }
    destruct (Hfields _ _ Ha) as (a'' & Ha'' & Hd & Hs & Hm & _).
    rewrite Ha' in Ha''. injection Ha'' as <-. by exists a. }
  destruct c as [| |n e r|n e r|payload tok|r]; simpl.
  - by apply Hsame.
  - by apply Hsame.
  - apply (Hframe n), signup_unchanged.
  - apply (Hframe n), unregister_unchanged.
  - apply Hsame, (login_frame payload tok st).
  - apply Hsame, (logout_frame r st).
Qed.

(** X14: no request changes the teacher directory: after startup it is
    read-only, whatever calls are made with whatever arguments. *)
Theorem teachers_read_only c st : teachers (run c st) = teachers st.
Proof. apply run_teachers. Qed.

(** X15: no activity is created, deleted or re-described at run time: in
    every reachable state the activity names are the nine seeded ones and
    each activity has the description, schedule and [max_participants] of
    the seed; only participant lists differ. *)
Theorem reachable_activities_fixed st :
  reachable st →
  dom (activities st) = dom activities_seed
  ∧ ∀ name a, activities st !! name = Some a →
      ∃ a0, activities_seed !! name = Some a0
            ∧ description a = description a0
            ∧ schedule a = schedule a0
            ∧ max_participants a = max_participants a0.
Proof.
  induction 1 as [file|c st _ [IHdom IH] _].
  - split; [by destruct file|].
    intros name a Ha. exists a. by destruct file.
  - destruct (run_activities c st) as [Hdom Hfields].
    split; [by rewrite Hdom|].
    intros name a' Ha'.
    destruct (Hfields _ _ Ha') as (a & Ha & Hd & Hs & Hm).
    destruct (IH _ _ Ha) as (a0 & Ha0 & Hd0 & Hs0 & Hm0).
    exists a0. split_and!; congruence.
Qed.

Lemma reachable_activities_fixed_witness :
  dom (activities state_math_club_full) = dom activities_seed
  ∧ ∀ name a, activities state_math_club_full !! name = Some a →
      ∃ a0, activities_seed !! name = Some a0
            ∧ description a = description a0
            ∧ schedule a = schedule a0
            ∧ max_participants a = max_participants a0.
Proof.
  apply (reachable_activities_fixed state_math_club_full).
  apply reachable_calls.
  - apply reachable_call; [apply reachable_startup|].
    vm_compute. reflexivity.
  - unfold math_club_signups. simpl. repeat constructor.
Defined.

(** X16: sessions have no expiry and are not disturbed by other requests: a
    session stays in the store, under the same user name, through every
    call except a logout that presents its token and a login whose
    generated token is the same. *)
Theorem session_persists c st tok user :
  sessions st !! tok = Some user →
  match c with
  | Logout request => get_token_from_request request ≠ Some tok
  | Login _ uuid4_hex => uuid4_hex ≠ tok
  | _ => True
  end →
  sessions (run c st) !! tok = Some user.
Proof.
  intros Hs Hc. destruct c as [| |n e r|n e r|payload t|r]; simpl.
  - done.
  - done.
  - destruct (signup_unchanged n e r st) as (_ & _ & _ & ->). done.
  - destruct (unregister_unchanged n e r st) as (_ & _ & _ & ->). done.
  - destruct (login_frame payload t st) as (_ & _ & Hother).
    rewrite Hother by congruence. done.
  - destruct (logout_sessions r st) as [(tok' & Htok' & _ & ->)|[_ ->]];
      [|done].
    rewrite lookup_delete_ne by congruence. done.
Qed.

Lemma session_persists_witness :
  sessions
    (run (Logout (request_with_cookie token_other)) state_two_sessions)
    !! token_example
  = Some "ms.rivera".
Proof.
  apply (session_persists (Logout (request_with_cookie token_other))
           state_two_sessions token_example "ms.rivera").
  - vm_compute. reflexivity.
  - vm_compute. discriminate.
Defined.

(** X17: in every reachable state each session was issued by a login: its
    token has the generator's format (so it is not empty) and its user name
    is a non-empty key of the teacher directory. *)
Theorem reachable_sessions_of_teachers st tok user :
  reachable st →
  sessions st !! tok = Some user →
  is_uuid4_hex tok = true ∧ user ≠ "" ∧ is_Some (teachers st !! user).
Proof.
  intros Hreach. revert tok user.
  induction Hreach as [file|c st _ IH Hc]; intros tok user Hs.
  - by destruct file.
  - rewrite run_teachers.
    destruct c as [| |n e r|n e r|payload t|r]; simpl in Hs.
    + by apply IH.
    + by apply IH.
    + destruct (signup_unchanged n e r st) as (_ & _ & _ & Hsess).
      rewrite Hsess in Hs. by apply IH.
    + destruct (unregister_unchanged n e r st) as (_ & _ & _ & Hsess).
      rewrite Hsess in Hs. by apply IH.
    + destruct (admin_login payload t st) as [o st'] eqn:Hlogin.
      destruct o as [res|code detail|exc].
      * destruct (login_success_inv _ _ _ _ _ Hlogin)
          as (u & p & _ & _ & Hune & _ & Hstored & _ & ->).
        simpl in Hs. destruct (decide (t = tok)) as [->|Hne].
        -- rewrite lookup_insert_eq in Hs. injection Hs as <-.
           split_and!; [exact Hc | done | by exists p].
        -- rewrite lookup_insert_ne in Hs by done. by apply IH.
      * destruct (login_failure_frame payload t st) as [[res Hres]|Hsame];
          rewrite Hlogin in *; simpl in *; [done|]. subst st'. by apply IH.
      * destruct (login_failure_frame payload t st) as [[res Hres]|Hsame];
          rewrite Hlogin in *; simpl in *; [done|]. subst st'. by apply IH.
    + destruct (logout_sessions r st) as [(tok' & _ & _ & Hdel)|[_ Hsame]].
      * rewrite Hdel in Hs. apply lookup_delete_Some in Hs as [_ Hs].
        by apply IH.
      * rewrite Hsame in Hs. by apply IH.
Qed.

Lemma reachable_sessions_of_teachers_witness :
  is_uuid4_hex token_other = true
  ∧ "mr.okafor" ≠ ""
  ∧ is_Some (teachers state_two_sessions !! "mr.okafor").
Proof.
  apply (reachable_sessions_of_teachers state_two_sessions token_other
           "mr.okafor").
  - apply reachable_call.
    + apply reachable_call; [apply reachable_startup|].
      vm_compute. reflexivity.
    + vm_compute. reflexivity.
  - vm_compute. reflexivity.
Defined.
